(** * A shallow embedding of the countdown timer service

    The development follows [timer.model.ts], [timer.service.ts] and
    [app.component.ts]: the data model first, then the service's
    methods and the component's lifecycle hooks as explicit
    state-passing functions on a [World] (the service instance together
    with the parts of the host it touches: the interval table of
    [window] and the system clock), then the properties.

    Numbers.  Instants are [Date.getTime()] values, whole milliseconds,
    in [Z].  A timer's [value] is a whole number of seconds in [Z]
    (zero and negative values included).  Quotients computed by the
    service ([remaining], [percent]) are exact rationals in [Q]; the
    rounding of IEEE doubles and the value [NaN] are outside the model.

    Subjects.  A [ReplaySubject] created without a window size buffers
    every value pushed to it; it is modelled by that buffer, oldest
    value first.  Subscribers are outside the service and are not
    modelled. *)

From Stdlib Require Import ZArith QArith Lia.
From stdpp Require Import base option list gmap strings pretty.

Local Open Scope Z_scope.

(** ** timer.model.ts *)

Inductive TimerId : Type := default | confirm.

Global Instance TimerId_eq_dec : EqDecision TimerId.
Proof. solve_decision. Defined.

Global Instance TimerId_countable : Countable TimerId :=
  inj_countable'
    (λ i, match i with default => false | confirm => true end)
    (λ b : bool, if b then confirm else default)
    (λ i, match i with default => eq_refl | confirm => eq_refl end).

Record TimerState : Type := mkTimerState {
  id : TimerId;
  value : Z;
}.

(** date-fns' [Duration]: every unit is optional. *)
Record Duration : Type := mkDuration {
  years : option Z;
  months : option Z;
  weeks : option Z;
  days : option Z;
  hours : option Z;
  minutes : option Z;
  seconds : option Z;
}.

(** The objects pushed on a monitor are built by spreading a
    [TimerState], so besides the three declared fields they carry the
    [id] of that state ([did]).  [display = None] is [null];
    [percent = None] is [undefined]. *)
Record TimerStateDisplay : Type := mkDisplay {
  did : TimerId;
  dvalue : Z;
  display : option Duration;
  percent : option Q;
}.

Definition Instant : Type := Z.
Definition Handle : Type := positive.

(** [ref] is the identity of the object allocated by [setTimer];
    [interval = None] covers both [undefined] and [null]. *)
Record TimerData : Type := mkTimerData {
  ref : nat;
  state : TimerState;
  monitor : list TimerStateDisplay;
  ended : list bool;
  interval : option Handle;
}.

Definition defaultTimer : TimerState := {| id := default; value := 56 * 60 |}.

(** ** The host *)

(** The environment captured by the arrow function handed to
    [window.setInterval] in [countdown]. *)
Record Poll : Type := mkPoll {
  poll_id : TimerId;
  poll_state : TimerState;
  poll_start : Instant;
}.

(** [timers] is the service's private map.  [intervals] is the table of
    armed intervals of [window] and [next_handle] the handle the next
    [setInterval] returns (handles are positive, hence truthy).
    [clock n] is what the [n]-th evaluation of [new Date()] reads and
    [reads] counts the evaluations so far. *)
Record World : Type := mkWorld {
  timers : gmap TimerId TimerData;
  intervals : gmap Handle Poll;
  next_handle : Handle;
  next_ref : nat;
  clock : nat → Instant;
  reads : nat;
}.

(** rxjs observables as far as the service builds them: [of(a)] emits
    [a] and completes; [subject.asObservable()] is the live stream of
    one subject, named by the record that owns it. *)
Inductive Observable (A : Type) : Type :=
  | ObsOf (a : A)
  | ObsMonitor (r : nat)
  | ObsEnded (r : nat).
Arguments ObsOf {A} a.
Arguments ObsMonitor {A} r.
Arguments ObsEnded {A} r.

(** What a subscriber receives from a completed stream. *)
Definition emissions {A : Type} (o : Observable A) : option (list A) :=
  match o with
  | ObsOf a => Some [a]
  | _ => None
  end.

(** date-fns is a dependency, not part of the repository: the calendar
    decomposition [intervalToDuration {start, end}] is taken as an
    interface. *)
Class DateFns : Type := {
  intervalToDuration : Instant → Instant → Duration;
}.

(** date-fns' [add(date, {seconds})]: [seconds * 1000] milliseconds
    later. *)
Definition add (date : Instant) (secs : Z) : Instant := date + secs * 1000.

(** ** Mutation of the record registered under an id *)

Definition set_timers (m : gmap TimerId TimerData) (w : World) : World :=
  {| timers := m; intervals := intervals w; next_handle := next_handle w;
     next_ref := next_ref w; clock := clock w; reads := reads w |}.

Definition set_intervals (t : gmap Handle Poll) (w : World) : World :=
  {| timers := timers w; intervals := t; next_handle := next_handle w;
     next_ref := next_ref w; clock := clock w; reads := reads w |}.

Definition monitor_next (d : TimerStateDisplay) (t : TimerData) : TimerData :=
  {| ref := ref t; state := state t; monitor := monitor t ++ [d];
     ended := ended t; interval := interval t |}.

Definition ended_next (b : bool) (t : TimerData) : TimerData :=
  {| ref := ref t; state := state t; monitor := monitor t;
     ended := ended t ++ [b]; interval := interval t |}.

Definition set_interval (h : option Handle) (t : TimerData) : TimerData :=
  {| ref := ref t; state := state t; monitor := monitor t;
     ended := ended t; interval := h |}.

(** A method holds the record as an object reference [timer] obtained
    from [getTimer(id)].  No method changes the binding of [id] between
    that lookup and its last use of [timer], so a write through [timer]
    is a write to the record bound to [id]. *)
Definition mutate (id : TimerId) (f : TimerData → TimerData) (w : World) : World :=
  set_timers (alter f id (timers w)) w.

(** [new Date()] *)
Definition newDate (w : World) : Instant * World :=
  (clock w (reads w),
   {| timers := timers w; intervals := intervals w; next_handle := next_handle w;
      next_ref := next_ref w; clock := clock w; reads := S (reads w) |}).

(** [window.setInterval(callback, 300)] *)
Definition window_setInterval (p : Poll) (w : World) : Handle * World :=
  (next_handle w,
   {| timers := timers w; intervals := <[next_handle w := p]> (intervals w);
      next_handle := Pos.succ (next_handle w);
      next_ref := next_ref w; clock := clock w; reads := reads w |}).

(** [window.clearInterval(handle)] *)
Definition window_clearInterval (h : Handle) (w : World) : World :=
  set_intervals (delete h (intervals w)) w.

(** ** timer.service.ts *)

Definition setTimer (state : TimerState) (w : World) : World :=
  let timerData :=
    {| ref := next_ref w; state := state; monitor := []; ended := [];
       interval := None |} in
  {| timers := <[id state := timerData]> (timers w);
     intervals := intervals w; next_handle := next_handle w;
     next_ref := S (next_ref w); clock := clock w; reads := reads w |}.

Definition getTimer (id : TimerId) (w : World) : option TimerData :=
  timers w !! id.

Definition clearInterval (id : TimerId) (w : World) : World :=
  match getTimer id w with
  | None => w
  | Some timer =>
      match interval timer with
      | Some h => mutate id (set_interval None) (window_clearInterval h w)
      | None => w
      end
  end.

(** The object literal [{...state, display, percent}]. *)
Definition spread (state : TimerState) (display : option Duration)
    (percent : option Q) : TimerStateDisplay :=
  {| did := id state; dvalue := value state;
     display := display; percent := percent |}.

(** [{...this.defaultTimerState, display: null}], where
    [defaultTimerState = defaultTimer]; no [percent] key is written. *)
Definition idleDisplay : TimerStateDisplay := spread defaultTimer None None.

Definition stop (id : TimerId) (w : World) : Observable bool * World :=
  match getTimer id w with
  | None => (ObsOf false, w)
  | Some timer =>
      let w := clearInterval id w in
      let w := mutate id (monitor_next idleDisplay) w in
      let w := mutate id (ended_next true) w in
      (ObsEnded (ref timer), w)
  end.

(** JavaScript's [!!v] on an optional number. *)
Definition truthy (v : option Z) : bool :=
  match v with
  | Some n => negb (n =? 0)
  | None => false
  end.

(** [!!state.display?.hours || !!state.display?.minutes ||
    !!state.display?.seconds] *)
Definition hasValue (state : TimerStateDisplay) : bool :=
  match display state with
  | Some d => truthy (hours d) || truthy (minutes d) || truthy (seconds d)
  | None => false
  end.

(** [ngZone.run] calls its argument where it stands. *)
Definition update (id : TimerId) (state : TimerStateDisplay) (w : World) : World :=
  match getTimer id w with
  | None => w
  | Some timer =>
      if negb (hasValue state) then
        let w := clearInterval id w in
        snd (stop id w)
      else mutate id (monitor_next state) w
  end.

Section Service.
Context `{DateFns}.

Definition getDuration (start now : Instant) (state : TimerState)
  : Duration * Q :=
  let end_ := add start (value state) in
  let display := intervalToDuration now end_ in
  let remaining := (inject_Z (end_ - now) / inject_Z 1000)%Q in
  (display, remaining).

Definition calculate (id : TimerId) (state : TimerState) (start : Instant)
    (w : World) : World :=
  let '(now, w) := newDate w in
  let '(display, remaining) := getDuration start now state in
  let percent :=
    if value state =? 0 then None
    else Some (remaining * inject_Z 100 / inject_Z (value state))%Q in
  update id (spread state (Some display) percent) w.

Definition countdown (id : TimerId) (state : TimerState) (w : World) : World :=
  let timer := getTimer id w in
  let '(start, w) := newDate w in
  match timer with
  | None => w
  | Some _ =>
      let w := clearInterval id w in
      let w := calculate id state start w in
      let '(h, w) :=
        window_setInterval
          {| poll_id := id; poll_state := state; poll_start := start |} w in
      mutate id (set_interval (Some h)) w
  end.

Definition start (id : TimerId) (w : World)
  : Observable (option TimerStateDisplay) * World :=
  match getTimer id w with
  | None => (ObsOf None, w)
  | Some timer =>
      let w := mutate id (ended_next false) w in
      let w := countdown id (state timer) w in
      (ObsMonitor (ref timer), w)
  end.

Definition reset (id : TimerId) (w : World)
  : Observable (option TimerStateDisplay) * World :=
  start id w.

(** The host fires the interval [h]: its callback is
    [() => this.calculate(id, state, start)]. *)
Definition tick (h : Handle) (w : World) : World :=
  match intervals w !! h with
  | Some p => calculate (poll_id p) (poll_state p) (poll_start p) w
  | None => w
  end.

End Service.

(** [String.prototype.padStart(targetLength, padString)]: when the
    string is shorter than [targetLength], [padString] is repeated, and
    cut, to fill the difference in front of it.  [fill k pad cur]
    yields the next [k] characters of the repetition, [cur] being what
    is left of the current copy of [pad]. *)
Fixpoint fill (k : nat) (pad cur : string) : string :=
  match k with
  | O => EmptyString
  | S k' =>
      match cur with
      | String c cur' => String c (fill k' pad cur')
      | EmptyString =>
          match pad with
          | String c pad' => String c (fill k' pad pad')
          | EmptyString => EmptyString
          end
      end
  end.

Definition padStart (targetLength : nat) (padString s : string) : string :=
  fill (targetLength - String.length s) padString padString +:+ s.

(** [zeroPad(value?: number)]; [`${value}`] on a whole number below
    [10^21] in magnitude is its decimal notation, with a leading minus
    sign for a negative one. *)
Definition zeroPad (value : option Z) : string :=
  match value with
  | Some n => if negb (n =? 0) then padStart 2 "0" (pretty n) else "00"
  | None => "00"
  end.

(** ** app.component.ts

    The component's two lifecycle hooks; the stream [start] returns is
    dropped, as is the one [stop] returns. *)

Section AppComponent.
Context `{DateFns}.

Definition ngOnInit (w : World) : World :=
  let w := setTimer defaultTimer w in
  snd (start default w).

Definition ngOnDestroy (w : World) : World :=
  snd (stop default w).

End AppComponent.

(** ** A date-fns instance for closed examples

    How date-fns 3 decomposes an interval shorter than a month in a
    time zone without a clock change inside it: whole days, then hours,
    minutes and seconds of the rest, each truncated toward zero and
    keeping the sign of the interval; a unit that comes out zero is
    left out of the object. *)

Definition unit_field (n : Z) : option Z := if n =? 0 then None else Some n.

Definition utcIntervalToDuration (start end_ : Instant) : Duration :=
  let ms := end_ - start in
  let d := Z.quot ms 86400000 in
  let ms := Z.rem ms 86400000 in
  let h := Z.quot ms 3600000 in
  let ms := Z.rem ms 3600000 in
  let m := Z.quot ms 60000 in
  let ms := Z.rem ms 60000 in
  let s := Z.quot ms 1000 in
  {| years := None; months := None; weeks := None; days := unit_field d;
     hours := unit_field h; minutes := unit_field m; seconds := unit_field s |}.

Definition utcDateFns : DateFns :=
  {| intervalToDuration := utcIntervalToDuration |}.

(** ** Vocabulary of the statements *)

(** A clock that returns the listed readings in turn and [last] ever
    after. *)
Definition readings (l : list Instant) (last : Instant) : nat → Instant :=
  λ n, nth n l last.

(** A service just constructed, on a host with no interval armed. *)
Definition fresh (clock : nat → Instant) : World :=
  {| timers := ∅; intervals := ∅; next_handle := 1%positive; next_ref := 0%nat;
     clock := clock; reads := 0%nat |}.

(** A unit of a breakdown that [!!] maps to [false]. *)
Definition absent_or_zero (v : option Z) : Prop := v = None ∨ v = Some 0.

(** A unit of a breakdown that [!!] maps to [true]. *)
Definition nonzero_unit (v : option Z) : Prop := ∃ n, v = Some n ∧ n ≠ 0.

(** A breakdown with a day or a larger unit present and non-zero. *)
Definition larger_unit (d : Duration) : bool :=
  truthy (days d) || truthy (weeks d) || truthy (months d) || truthy (years d).

(** The interval table once the poll named by a record's [interval]
    field has been cleared. *)
Definition cancel (o : option Handle) (t : gmap Handle Poll) : gmap Handle Poll :=
  match o with
  | Some h => delete h t
  | None => t
  end.

(** The world [w] with the record of [id] replaced by [r] and the
    interval table by [t]. *)
Definition put (id : TimerId) (r : TimerData) (t : gmap Handle Poll)
    (w : World) : World :=
  {| timers := <[id := r]> (timers w); intervals := t;
     next_handle := next_handle w; next_ref := next_ref w;
     clock := clock w; reads := reads w |}.

(** The record [r] after [stop]: idle display and [true] pushed, no
    poll. *)
Definition stopped (r : TimerData) : TimerData :=
  {| ref := ref r; state := state r; monitor := monitor r ++ [idleDisplay];
     ended := ended r ++ [true]; interval := None |}.

(** The world after one more reading of the clock. *)
Definition tock (w : World) : World := snd (newDate w).

Section Vocabulary.
Context `{DateFns}.

(** The display [calculate] hands to [update] when the clock reads
    [now]. *)
Definition computed (state : TimerState) (start now : Instant)
  : TimerStateDisplay :=
  spread state (Some (fst (getDuration start now state)))
    (if value state =? 0 then None
     else Some (snd (getDuration start now state) * inject_Z 100
                / inject_Z (value state))%Q).

(** The record after [calculate], starting from the record [r]. *)
Definition calculated (st : TimerState) (start now : Instant)
    (r : TimerData) : TimerData :=
  if hasValue (computed st start now)
  then monitor_next (computed st start now) r
  else stopped r.

End Vocabulary.

(** Every armed poll is the one held by the record of its id: the
    table of the host has no poll the service has lost track of. *)
Definition linked (w : World) : Prop :=
  ∀ h p, intervals w !! h = Some p →
    ∃ r, getTimer (poll_id p) w = Some r ∧ interval r = Some h.

(** Every handle held by a record names an armed poll, made for the
    id and the configuration of that record. *)
Definition anchored (w : World) : Prop :=
  ∀ i r h, getTimer i w = Some r → interval r = Some h →
    ∃ p, intervals w !! h = Some p ∧ poll_id p = i ∧ poll_state p = state r.

(** The host hands out handles it has not handed out before. *)
Definition fresh_handles (w : World) : Prop :=
  ∀ h, is_Some (intervals w !! h) → (h < next_handle w)%positive.

(** What can happen to a service: a call of one of its public methods,
    or the host firing an interval. *)
Inductive Call : Type :=
  | CallSetTimer (st : TimerState)
  | CallStart (i : TimerId)
  | CallStop (i : TimerId)
  | CallReset (i : TimerId)
  | Fire (h : Handle).

Definition registers (c : Call) : bool :=
  match c with
  | CallSetTimer _ => true
  | _ => false
  end.

Section Calls.
Context `{DateFns}.

Definition call (c : Call) (w : World) : World :=
  match c with
  | CallSetTimer st => setTimer st w
  | CallStart i => snd (start i w)
  | CallStop i => snd (stop i w)
  | CallReset i => snd (reset i w)
  | Fire h => tick h w
  end.

Definition calls (cs : list Call) (w : World) : World :=
  foldl (λ w c, call c w) w cs.

End Calls.

(** The record [r'] is the record [r] later on: the same object with
    the same configuration, its buffers grown at the end. *)
Definition extends (r r' : TimerData) : Prop :=
  ref r' = ref r ∧ state r' = state r
  ∧ monitor r `prefix_of` monitor r' ∧ ended r `prefix_of` ended r'.

(** Worlds of the closed examples.  The clock is frozen at one instant
    unless readings are listed. *)

Definition confirm10 : TimerState := {| id := confirm; value := 10 |}.
Definition default10 : TimerState := {| id := default; value := 10 |}.
Definition wholeDay : TimerState := {| id := default; value := 86400 |}.

Definition registered (st : TimerState) : World :=
  setTimer st (fresh (readings [] 1000000)).

Definition running : World :=
  snd (@start utcDateFns default (registered defaultTimer)).

Definition replaced : World := setTimer default10 running.

Definition fiftySix : Duration :=
  {| years := None; months := None; weeks := None; days := None;
     hours := None; minutes := Some 56; seconds := None |}.

Definition oneDay : Duration :=
  {| years := None; months := None; weeks := None; days := Some 1;
     hours := None; minutes := None; seconds := None |}.

(** The default timer started at 1000000; the first tick will read the
    clock 300 ms later. *)
Definition runningLater : World :=
  snd (@start utcDateFns default
         (setTimer defaultTimer (fresh (readings [1000000; 1000000] 1000300)))).

(** A one-second timer started at 1000000; the first tick will read the
    clock 1200 ms later. *)
Definition oneSecond : TimerState := {| id := default; value := 1 |}.

Definition expiring : World :=
  snd (@start utcDateFns default
         (setTimer oneSecond (fresh (readings [1000000; 1000000] 1001200)))).

(** The default timer running beside a registered ten-second timer. *)
Definition twoTimers : World := setTimer confirm10 running.

(** The one-second timer about to expire beside a ten-second timer just
    started. *)
Definition bothRunning : World :=
  snd (@start utcDateFns confirm (setTimer confirm10 expiring)).

(** * Properties *)

(** ** Writes to a registered record, in closed form *)

Lemma alter_registered (m : gmap TimerId TimerData) i f r :
  m !! i = Some r → alter f i m = <[i := f r]> m.
Proof.
  intros Hr. apply map_eq. intros j.
  rewrite lookup_alter, lookup_insert.
  case_decide; subst; [by rewrite Hr | done].
Qed.

Lemma getTimer_put i r t w : getTimer i (put i r t w) = Some r.
Proof. unfold getTimer, put. simpl. apply lookup_insert_eq. Qed.

Lemma getTimer_put_ne i j r t w :
  i ≠ j → getTimer j (put i r t w) = getTimer j w.
Proof. intros Hne. unfold getTimer, put. simpl. by apply lookup_insert_ne. Qed.

Lemma put_put i r r' t t' w : put i r t (put i r' t' w) = put i r t w.
Proof. unfold put. simpl. by rewrite insert_insert_eq. Qed.

Lemma put_same i r w :
  getTimer i w = Some r → put i r (intervals w) w = w.
Proof.
  unfold getTimer, put. intros Hr. rewrite (insert_id _ _ _ Hr). by destruct w.
Qed.

Lemma mutate_registered i f w r :
  getTimer i w = Some r → mutate i f w = put i (f r) (intervals w) w.
Proof.
  unfold getTimer, mutate, set_timers, put. intros Hr.
  by rewrite (alter_registered _ _ _ _ Hr).
Qed.

Lemma mutate_put i f r t w : mutate i f (put i r t w) = put i (f r) t w.
Proof.
  rewrite (mutate_registered _ _ _ r) by apply getTimer_put.
  apply put_put.
Qed.

Lemma clearInterval_registered i w r :
  getTimer i w = Some r →
  clearInterval i w =
    put i (set_interval None r) (cancel (interval r) (intervals w)) w.
Proof.
  intros Hr. unfold clearInterval. rewrite Hr.
  destruct (interval r) as [h|] eqn:Hh; simpl.
  - rewrite (mutate_registered _ _ _ r) by exact Hr. reflexivity.
  - rewrite <- (put_same i r w Hr) at 1. f_equal.
    destruct r; simpl in *; by subst.
Qed.

Lemma stop_registered i w r :
  getTimer i w = Some r →
  stop i w =
    (ObsEnded (ref r), put i (stopped r) (cancel (interval r) (intervals w)) w).
Proof.
  intros Hr. unfold stop. rewrite Hr.
  rewrite (clearInterval_registered _ _ _ Hr), !mutate_put. reflexivity.
Qed.

Lemma update_registered i st w r :
  getTimer i w = Some r →
  update i st w =
    if hasValue st then put i (monitor_next st r) (intervals w) w
    else put i (stopped r) (cancel (interval r) (intervals w)) w.
Proof.
  intros Hr. unfold update. rewrite Hr.
  destruct (hasValue st); simpl.
  - by apply mutate_registered.
  - rewrite (clearInterval_registered _ _ _ Hr).
    rewrite (stop_registered _ _ (set_interval None r)) by apply getTimer_put.
    simpl. apply put_put.
Qed.

Lemma newDate_tock w : newDate w = (clock w (reads w), tock w).
Proof. reflexivity. Qed.

Lemma tock_put i r t w : tock (put i r t w) = put i r t (tock w).
Proof. reflexivity. Qed.

Lemma getTimer_tock i w : getTimer i (tock w) = getTimer i w.
Proof. reflexivity. Qed.

Section ServiceFacts.
Context `{DateFns}.

Lemma calculate_update i st start w :
  calculate i st start w
  = update i (computed st start (clock w (reads w))) (tock w).
Proof. reflexivity. Qed.

Lemma hasValue_computed st start now :
  hasValue (computed st start now)
  = let d := fst (getDuration start now st) in
    truthy (hours d) || truthy (minutes d) || truthy (seconds d).
Proof. reflexivity. Qed.

Lemma calculate_registered i st start w r :
  getTimer i w = Some r →
  calculate i st start w
  = put i (calculated st start (clock w (reads w)) r)
      (if hasValue (computed st start (clock w (reads w)))
       then intervals w else cancel (interval r) (intervals w))
      (tock w).
Proof.
  intros Hr. rewrite calculate_update.
  rewrite (update_registered _ _ _ r) by exact Hr.
  unfold calculated. by destruct (hasValue _).
Qed.

(** [start] on a registered timer, in closed form: [false] is pushed
    on [ended], the previous poll is cleared, the first display is
    calculated from two readings of the clock, and a new poll is
    armed and stored whatever that calculation did. *)
Lemma start_registered i w r :
  getTimer i w = Some r →
  start i w =
    (ObsMonitor (ref r),
     let t0 := clock w (reads w) in
     let t1 := clock w (S (reads w)) in
     {| timers :=
          <[i := set_interval (Some (next_handle w))
                   (calculated (state r) t0 t1
                      (set_interval None (ended_next false r)))]> (timers w);
        intervals :=
          <[next_handle w :=
              {| poll_id := i; poll_state := state r; poll_start := t0 |}]>
            (cancel (interval r) (intervals w));
        next_handle := Pos.succ (next_handle w);
        next_ref := next_ref w; clock := clock w;
        reads := S (S (reads w)) |}).
Proof.
  intros Hr. unfold start. rewrite Hr. f_equal.
  rewrite (mutate_registered _ _ _ r) by exact Hr.
  unfold countdown. rewrite getTimer_put, newDate_tock, tock_put.
  rewrite (clearInterval_registered _ _ (ended_next false r))
    by apply getTimer_put.
  rewrite put_put.
  rewrite (calculate_registered _ _ _ _ (set_interval None (ended_next false r)))
    by apply getTimer_put.
  rewrite tock_put, put_put. simpl.
  unfold window_setInterval, mutate, set_timers, put. simpl.
  rewrite alter_insert_eq.
  by destruct (hasValue _).
Qed.

End ServiceFacts.


Lemma truthy_false v : truthy v = false ↔ absent_or_zero v.
Proof.
  unfold absent_or_zero. destruct v as [n|]; simpl.
  - rewrite negb_false_iff, Z.eqb_eq. split.
    + intros ->. by right.
    + intros [?|?]; congruence.
  - split; [by left | done].
Qed.

Lemma hasValue_false st :
  hasValue st = false ↔
  ∀ d, display st = Some d →
    absent_or_zero (hours d) ∧ absent_or_zero (minutes d)
    ∧ absent_or_zero (seconds d).
Proof.
  unfold hasValue. destruct (display st) as [d|].
  - rewrite !orb_false_iff, !truthy_false. split.
    + intros [[??]?] d' [= <-]. done.
    + intros Hd. destruct (Hd d eq_refl) as (?&?&?). done.
  - split; [intros _ d [=] | done].
Qed.

(** ** Unknown ids *)

Section UnknownId.
Context `{DateFns}.

(** C6.  For an id with no registered record, [start(id)] raises
    nothing and returns [of(null)]: the stream completes after the one
    value [null], so no [TimerStateDisplay] is among its emissions; the
    service and the host are left as they were. *)
Theorem start_unregistered id w :
  getTimer id w = None →
  start id w = (ObsOf None, w)
  ∧ emissions (fst (start id w)) = Some [None]
  ∧ ∀ vs d, emissions (fst (start id w)) = Some vs → Some d ∉ vs.
Proof.
  intros Hnone. unfold start. rewrite Hnone. simpl.
  split; [done|]. split; [done|].
  intros vs d [= <-]. rewrite list_elem_of_singleton. discriminate.
Qed.

End UnknownId.

(** C7.  For an id with no registered record, [stop(id)] returns
    [of(false)], a stream that emits exactly the one value [false], and
    the map of records is unchanged (as is everything else). *)
Theorem stop_unregistered id w :
  getTimer id w = None →
  stop id w = (ObsOf false, w)
  ∧ emissions (fst (stop id w)) = Some [false]
  ∧ timers (snd (stop id w)) = timers w.
Proof.
  intros Hnone. unfold stop. rewrite Hnone. done.
Qed.

Lemma start_unregistered_witness :
  getTimer confirm (registered defaultTimer) = None
  ∧ @start utcDateFns confirm (registered defaultTimer)
    = (ObsOf None, registered defaultTimer).
Proof.
  split; [reflexivity|].
  apply (@start_unregistered utcDateFns confirm (registered defaultTimer)).
  reflexivity.
Defined.

Lemma stop_unregistered_witness :
  getTimer confirm (registered defaultTimer) = None
  ∧ stop confirm (registered defaultTimer)
    = (ObsOf false, registered defaultTimer).
Proof.
  split; [reflexivity|].
  apply (stop_unregistered confirm (registered defaultTimer)).
  reflexivity.
Defined.

(** ** The duration helper and the percentage *)

Section Calculation.
Context `{DateFns}.





End Calculation.

(** [remaining] is fractional between whole seconds and negative once
    the end has passed. *)
Example getDuration_fractional :
  Qeq (snd (@getDuration utcDateFns 1000000 1000300 oneSecond)) (7 # 10).
Proof. reflexivity. Qed.

Example getDuration_negative :
  Qeq (snd (@getDuration utcDateFns 1000000 1001200 oneSecond)) (- (1 # 5)).
Proof. reflexivity. Qed.


Lemma truthy_true v : truthy v = true ↔ nonzero_unit v.
Proof.
  unfold nonzero_unit. destruct v as [n|]; simpl.
  - rewrite negb_true_iff, Z.eqb_neq. split.
    + intros Hn. by exists n.
    + intros (m & [= <-] & Hm). done.
  - split; [done | by intros (m & [=] & _)].
Qed.

(** ** [stop] *)




(** ** [reset] *)

Section Reset.
Context `{DateFns}.


End Reset.



(** ** Expiry *)

Section Expiry.
Context `{DateFns}.

Lemma calculate_expired i st start w r :
  getTimer i w = Some r →
  hasValue (computed st start (clock w (reads w))) = false →
  calculate i st start w = snd (stop i (clearInterval i (tock w)))
  ∧ calculate i st start w
    = put i (stopped r) (cancel (interval r) (intervals w)) (tock w).
Proof.
  intros Hr Hv. split.
  - rewrite calculate_update. unfold update.
    rewrite getTimer_tock, Hr, Hv. reflexivity.
  - rewrite (calculate_registered _ _ _ _ r) by exact Hr.
    unfold calculated. by rewrite Hv.
Qed.

Lemma calculate_shown i st start w r :
  getTimer i w = Some r →
  hasValue (computed st start (clock w (reads w))) = true →
  calculate i st start w
  = put i (monitor_next (computed st start (clock w (reads w))) r)
      (intervals w) (tock w).
Proof.
  intros Hr Hv. rewrite (calculate_registered _ _ _ _ r) by exact Hr.
  unfold calculated. by rewrite Hv.
Qed.

(** C5.  A tick of the poll of a running timer computes a display
    [shown] with breakdown [d].  If hours, minutes and seconds of [d]
    are all absent or zero, the tick clears the poll and runs
    [stop(id)]: the poll is gone from the host, the record has no
    interval, and what reaches the streams is [stop]'s idle display and
    [true]; [shown] itself is not pushed.  If one of the three units is
    non-zero, the tick pushes [shown] on the monitor and changes
    nothing else. *)
Theorem tick_expires_or_broadcasts h w p r :
  intervals w !! h = Some p →
  getTimer (poll_id p) w = Some r →
  interval r = Some h →
  let i := poll_id p in
  let shown := computed (poll_state p) (poll_start p) (clock w (reads w)) in
  let d := fst (getDuration (poll_start p) (clock w (reads w)) (poll_state p)) in
  display shown = Some d
  ∧ (absent_or_zero (hours d) ∧ absent_or_zero (minutes d)
     ∧ absent_or_zero (seconds d) →
       tick h w = snd (stop i (clearInterval i (tock w)))
       ∧ getTimer i (tick h w)
         = Some {| ref := ref r; state := state r;
                   monitor := monitor r ++ [idleDisplay];
                   ended := ended r ++ [true]; interval := None |}
       ∧ intervals (tick h w) = delete h (intervals w)
       ∧ intervals (tick h w) !! h = None
       ∧ shown ≠ idleDisplay)
  ∧ (nonzero_unit (hours d) ∨ nonzero_unit (minutes d)
     ∨ nonzero_unit (seconds d) →
       tick h w = mutate i (monitor_next shown) (tock w)
       ∧ getTimer i (tick h w)
         = Some {| ref := ref r; state := state r;
                   monitor := monitor r ++ [shown];
                   ended := ended r; interval := Some h |}
       ∧ intervals (tick h w) = intervals w).
Proof.
  intros Hp Hr Hh i shown d. unfold tick. rewrite Hp. fold i.
  split; [reflexivity|]. split.
  - intros (Hhr & Hmin & Hsec).
    assert (Hv : hasValue shown = false).
    { unfold shown. rewrite hasValue_computed. cbv zeta. fold d.
      apply truthy_false in Hhr, Hmin, Hsec. by rewrite Hhr, Hmin, Hsec. }
    destruct (calculate_expired i (poll_state p) (poll_start p) w r Hr Hv)
      as [Hstop Hput].
    split; [exact Hstop|]. rewrite Hput, getTimer_put, Hh. simpl.
    split; [reflexivity|]. split; [reflexivity|].
    split; [apply lookup_delete_eq|].
    intros Heq. apply (f_equal display) in Heq. discriminate.
  - intros Hnz.
    assert (Hv : hasValue shown = true).
    { unfold shown. rewrite hasValue_computed. cbv zeta. fold d.
      rewrite !orb_true_iff, !truthy_true. tauto. }
    rewrite (calculate_shown i _ _ w r Hr Hv). fold shown.
    rewrite (mutate_registered _ _ _ r) by exact Hr.
    split; [reflexivity|]. rewrite getTimer_put. unfold monitor_next.
    rewrite Hh. split; reflexivity.
Qed.

(** C10.  The expiry test reads hours, minutes and seconds only.  When
    the breakdown computed by [calculate] (at start time or on a tick)
    has a non-zero day or larger unit but hours, minutes and seconds
    absent or zero, [calculate] takes the expiry branch: it clears the
    poll and runs [stop], so the monitor receives the idle display and
    not the computed one, and [ended] receives [true]. *)
Theorem expiry_ignores_larger_units i st start w r :
  getTimer i w = Some r →
  let shown := computed st start (clock w (reads w)) in
  let d := fst (getDuration start (clock w (reads w)) st) in
  larger_unit d = true →
  absent_or_zero (hours d) →
  absent_or_zero (minutes d) →
  absent_or_zero (seconds d) →
  hasValue shown = false
  ∧ calculate i st start w = snd (stop i (clearInterval i (tock w)))
  ∧ getTimer i (calculate i st start w)
    = Some {| ref := ref r; state := state r;
              monitor := monitor r ++ [idleDisplay];
              ended := ended r ++ [true]; interval := None |}
  ∧ intervals (calculate i st start w) = cancel (interval r) (intervals w).
Proof.
  intros Hr shown d _ Hhr Hmin Hsec.
  assert (Hv : hasValue shown = false).
  { unfold shown. rewrite hasValue_computed. cbv zeta. fold d.
    apply truthy_false in Hhr, Hmin, Hsec. by rewrite Hhr, Hmin, Hsec. }
  destruct (calculate_expired i st start w r Hr Hv) as [Hstop Hput].
  split; [exact Hv|]. split; [exact Hstop|].
  rewrite Hput, getTimer_put. done.
Qed.

End Expiry.

Lemma tick_expires_or_broadcasts_witness :
  intervals running !! 1%positive
  = Some {| poll_id := default; poll_state := defaultTimer;
            poll_start := 1000000 |}
  ∧ (monitor <$> getTimer default (@tick utcDateFns 1%positive running))
    = Some [spread defaultTimer (Some fiftySix) (Some (336000000 # 3360000));
            spread defaultTimer (Some fiftySix) (Some (336000000 # 3360000))]
  ∧ intervals expiring !! 1%positive
    = Some {| poll_id := default; poll_state := oneSecond;
              poll_start := 1000000 |}
  ∧ getTimer default (@tick utcDateFns 1%positive expiring)
    = Some {| ref := 0; state := oneSecond;
              monitor := [spread oneSecond
                            (Some {| years := None; months := None;
                                     weeks := None; days := None;
                                     hours := None; minutes := None;
                                     seconds := Some 1 |})
                            (Some (100000 # 1000));
                          idleDisplay];
              ended := [false; true]; interval := None |}.
Proof.
  split; [reflexivity|]. split.
  - destruct (@tick_expires_or_broadcasts utcDateFns 1%positive running
                {| poll_id := default; poll_state := defaultTimer;
                   poll_start := 1000000 |}
                {| ref := 0; state := defaultTimer;
                   monitor := [spread defaultTimer (Some fiftySix)
                                 (Some (336000000 # 3360000))];
                   ended := [false]; interval := Some 1%positive |}
                eq_refl eq_refl eq_refl) as (_ & _ & Hshown).
    destruct Hshown as (_ & Hrec & _).
    { right. left. exists 56. split; [reflexivity | discriminate]. }
    cbn [poll_id] in Hrec. rewrite Hrec. reflexivity.
  - split; [reflexivity|].
    destruct (@tick_expires_or_broadcasts utcDateFns 1%positive expiring
                {| poll_id := default; poll_state := oneSecond;
                   poll_start := 1000000 |}
                {| ref := 0; state := oneSecond;
                   monitor := [spread oneSecond
                                 (Some {| years := None; months := None;
                                          weeks := None; days := None;
                                          hours := None; minutes := None;
                                          seconds := Some 1 |})
                                 (Some (100000 # 1000))];
                   ended := [false]; interval := Some 1%positive |}
                eq_refl eq_refl eq_refl) as (_ & Hexp & _).
    destruct Hexp as (_ & Hrec & _).
    { repeat split; left; reflexivity. }
    exact Hrec.
Defined.

Lemma expiry_ignores_larger_units_witness :
  fst (@getDuration utcDateFns 1000000 1000000 wholeDay) = oneDay
  ∧ getTimer default
      (@calculate utcDateFns default wholeDay 1000000 (registered wholeDay))
    = Some {| ref := 0; state := wholeDay; monitor := [idleDisplay];
              ended := [true]; interval := None |}.
Proof.
  split; [reflexivity|].
  apply (@expiry_ignores_larger_units utcDateFns default wholeDay 1000000
           (registered wholeDay)
           {| ref := 0; state := wholeDay; monitor := []; ended := [];
              interval := None |}).
  - reflexivity.
  - reflexivity.
  - left. reflexivity.
  - left. reflexivity.
  - left. reflexivity.
Defined.

(** The same at the level of [start]: a timer of exactly one day is
    stopped by its own first calculation, and [countdown] arms the poll
    all the same. *)
Example start_whole_day :
  getTimer default (snd (@start utcDateFns default (registered wholeDay)))
  = Some {| ref := 0; state := wholeDay; monitor := [idleDisplay];
            ended := [false; true]; interval := Some 1%positive |}.
Proof. reflexivity. Qed.

(** ** The percentage *)

(** C1 (the code against the claim).  The default timer is registered
    and started; both readings of the clock in [start] return the same
    instant.  The first display on the monitor shows the full 56
    minutes and a percentage equal to 100, not 0.  At the first tick,
    300 ms later, the percentage is between 99 and 100: the field
    counts down with the remaining time, it is the share remaining and
    not the share elapsed. *)
Theorem first_display_percent :
  ∃ p q d,
    (monitor <$> getTimer default running)
    = Some [spread defaultTimer (Some fiftySix) (Some p)]
    ∧ (p == 100)%Q
    ∧ (monitor <$> getTimer default (@tick utcDateFns 1%positive runningLater))
      = Some [spread defaultTimer (Some fiftySix) (Some p);
              spread defaultTimer (Some d) (Some q)]
    ∧ (99 < q)%Q ∧ (q < 100)%Q.
Proof.
  eexists _, _, _. split; [reflexivity|]. split; [reflexivity|].
  split; [reflexivity|]. split; reflexivity.
Qed.

(** ** Re-registration *)

(** C4 (the code against the claim).  [setTimer] never touches the
    interval table.  The default timer is started and then registered
    again with another value: the poll armed by [start] stays armed,
    the new record has no interval to clear it by, a tick of the old
    poll lands on the new record's monitor with the old value, and a
    second [start] leaves two polls armed for the one id. *)
Theorem setTimer_keeps_old_poll :
  (∀ st w, intervals (setTimer st w) = intervals w)
  ∧ intervals replaced !! 1%positive
    = Some {| poll_id := default; poll_state := defaultTimer;
              poll_start := 1000000 |}
  ∧ getTimer default replaced
    = Some {| ref := 1; state := default10; monitor := []; ended := [];
              interval := None |}
  ∧ (monitor <$> getTimer default (@tick utcDateFns 1%positive replaced))
    = Some [spread defaultTimer (Some fiftySix) (Some (336000000 # 3360000))]
  ∧ (poll_id <$> intervals (snd (@start utcDateFns default replaced)) !! 1%positive)
    = Some default
  ∧ (poll_id <$> intervals (snd (@start utcDateFns default replaced)) !! 2%positive)
    = Some default
  ∧ size (intervals (snd (@start utcDateFns default replaced))) = 2%nat.
Proof.
  split; [reflexivity|]. repeat split; reflexivity.
Qed.

(** * Further properties of the service *)

(** ** Registration *)

(** X1.  A registration can be read back: after [setTimer(state)] the
    id of [state] is bound to a new record holding [state], with empty
    buffers and no interval.  Registering the same id again binds yet
    another record, so everything buffered on the first is out of reach
    of [getTimer]. *)
Theorem setTimer_getTimer st v w :
  getTimer (id st) (setTimer st w)
  = Some {| ref := next_ref w; state := st; monitor := []; ended := [];
            interval := None |}
  ∧ getTimer (id st)
      (setTimer {| id := id st; value := v |} (setTimer st w))
    = Some {| ref := S (next_ref w);
              state := {| id := id st; value := v |};
              monitor := []; ended := []; interval := None |}.
Proof.
  unfold getTimer, setTimer. cbn [timers next_ref id].
  rewrite insert_insert_eq, !lookup_insert_eq. done.
Qed.

(** ** Calls on one id and the records of the others *)

Section Frame.
Context `{DateFns}.

Lemma stop_frame i j w : i ≠ j → getTimer j (snd (stop i w)) = getTimer j w.
Proof.
  intros Hne. destruct (getTimer i w) as [r|] eqn:Hr.
  - rewrite (stop_registered _ _ _ Hr). by apply getTimer_put_ne.
  - unfold stop. by rewrite Hr.
Qed.

Lemma calculate_frame i j st s w :
  i ≠ j → getTimer j (calculate i st s w) = getTimer j w.
Proof.
  intros Hne. rewrite calculate_update.
  destruct (getTimer i (tock w)) as [r|] eqn:Hr.
  - rewrite (update_registered _ _ _ _ Hr).
    destruct (hasValue _); by rewrite getTimer_put_ne, getTimer_tock.
  - unfold update. by rewrite Hr, getTimer_tock.
Qed.

Lemma start_frame i j w : i ≠ j → getTimer j (snd (start i w)) = getTimer j w.
Proof.
  intros Hne. destruct (getTimer i w) as [r|] eqn:Hr.
  - rewrite (start_registered _ _ _ Hr). unfold getTimer. cbn [snd timers].
    by apply lookup_insert_ne.
  - unfold start. by rewrite Hr.
Qed.

Lemma setTimer_frame st j w :
  id st ≠ j → getTimer j (setTimer st w) = getTimer j w.
Proof. intros Hne. unfold getTimer, setTimer. simpl. by apply lookup_insert_ne. Qed.

(** X2.  A call about one id leaves the record of every other id as it
    was: [setTimer], [start], [stop], [reset] and the calculation of a
    tick for [i] do not touch the configuration, the buffers or the
    interval field recorded for [j]. *)
Theorem other_timers_untouched i j w :
  i ≠ j →
  (∀ v, getTimer j (setTimer {| id := i; value := v |} w) = getTimer j w)
  ∧ getTimer j (snd (start i w)) = getTimer j w
  ∧ getTimer j (snd (stop i w)) = getTimer j w
  ∧ getTimer j (snd (reset i w)) = getTimer j w
  ∧ (∀ st s, getTimer j (calculate i st s w) = getTimer j w).
Proof.
  intros Hne. split; [intros v; by apply setTimer_frame|].
  split; [by apply start_frame|]. split; [by apply stop_frame|].
  split; [by apply start_frame|]. intros st s. by apply calculate_frame.
Qed.

End Frame.

Lemma other_timers_untouched_witness :
  default ≠ confirm
  ∧ getTimer confirm (snd (@start utcDateFns default twoTimers))
    = getTimer confirm twoTimers
  ∧ getTimer confirm (snd (stop default twoTimers))
    = getTimer confirm twoTimers.
Proof.
  split; [discriminate|].
  destruct (@other_timers_untouched utcDateFns default confirm twoTimers)
    as (_ & Hstart & Hstop & _); [discriminate|].
  split; [exact Hstart | exact Hstop].
Defined.

(** ** What no call but [setTimer] changes *)

Lemma extends_refl r : extends r r.
Proof. unfold extends. done. Qed.

Lemma extends_trans r1 r2 r3 : extends r1 r2 → extends r2 r3 → extends r1 r3.
Proof.
  unfold extends. intros (?&?&?&?) (?&?&?&?).
  repeat split; try congruence; by etrans.
Qed.

Lemma extends_stopped r : extends r (stopped r).
Proof. unfold extends, stopped. simpl. repeat split; by apply prefix_app_r. Qed.

Lemma extends_monitor_next d r : extends r (monitor_next d r).
Proof.
  unfold extends, monitor_next. simpl. repeat split; [by apply prefix_app_r|done].
Qed.

Lemma extends_ended_next b r : extends r (ended_next b r).
Proof.
  unfold extends, ended_next. simpl. repeat split; [done|by apply prefix_app_r].
Qed.

Lemma extends_set_interval o r : extends r (set_interval o r).
Proof. unfold extends, set_interval. done. Qed.

Section Persistence.
Context `{DateFns}.

Lemma extends_calculated st s now r : extends r (calculated st s now r).
Proof.
  unfold calculated. destruct (hasValue _);
    [apply extends_monitor_next | apply extends_stopped].
Qed.

Lemma stop_extends i j w r :
  getTimer j w = Some r →
  ∃ r', getTimer j (snd (stop i w)) = Some r' ∧ extends r r'.
Proof.
  intros Hr. destruct (decide (i = j)) as [->|Hne].
  - rewrite (stop_registered _ _ _ Hr). cbn [snd]. rewrite getTimer_put.
    eexists. split; [done | apply extends_stopped].
  - rewrite stop_frame by done. eexists. split; [done | apply extends_refl].
Qed.

Lemma calculate_extends i j st s w r :
  getTimer j w = Some r →
  ∃ r', getTimer j (calculate i st s w) = Some r' ∧ extends r r'.
Proof.
  intros Hr. destruct (decide (i = j)) as [->|Hne].
  - rewrite (calculate_registered _ _ _ _ _ Hr), getTimer_put.
    eexists. split; [done | apply extends_calculated].
  - rewrite calculate_frame by done. eexists. split; [done | apply extends_refl].
Qed.

Lemma start_extends i j w r :
  getTimer j w = Some r →
  ∃ r', getTimer j (snd (start i w)) = Some r' ∧ extends r r'.
Proof.
  intros Hr. destruct (decide (i = j)) as [->|Hne].
  - rewrite (start_registered _ _ _ Hr). unfold getTimer. cbn [snd timers].
    rewrite lookup_insert_eq. eexists. split; [done|].
    eapply extends_trans; [|apply extends_set_interval].
    eapply extends_trans; [|apply extends_calculated].
    eapply extends_trans; [|apply extends_set_interval].
    apply extends_ended_next.
  - rewrite start_frame by done. eexists. split; [done | apply extends_refl].
Qed.

Lemma call_extends c j w r :
  registers c = false →
  getTimer j w = Some r →
  ∃ r', getTimer j (call c w) = Some r' ∧ extends r r'.
Proof.
  intros Hc Hr. destruct c as [st|i|i|i|h]; simpl in *; try done.
  - by apply start_extends.
  - by apply stop_extends.
  - by apply start_extends.
  - unfold tick. destruct (intervals w !! h) as [p|].
    + by apply calculate_extends.
    + eexists. split; [done | apply extends_refl].
Qed.

(** X3.  Only [setTimer] replaces a record.  Through any sequence of
    [start], [stop], [reset] calls and ticks, on any ids, a registered
    timer stays registered as the same object with the same
    configuration, and its two buffers only grow at the end: nothing
    that was pushed is lost or rewritten. *)
Theorem calls_extend cs j w r :
  forallb (λ c, negb (registers c)) cs = true →
  getTimer j w = Some r →
  ∃ r', getTimer j (calls cs w) = Some r' ∧ extends r r'.
Proof.
  revert w r. induction cs as [|c cs IH]; intros w r Hcs Hr.
  - exists r. split; [done | apply extends_refl].
  - simpl in Hcs. apply andb_true_iff in Hcs as [Hc Hcs].
    apply negb_true_iff in Hc.
    destruct (call_extends c j w r Hc Hr) as (r1 & Hr1 & He1).
    destruct (IH (call c w) r1 Hcs Hr1) as (r2 & Hr2 & He2).
    exists r2. split; [exact Hr2 | by eapply extends_trans].
Qed.

Lemma call_unregistered c j w :
  registers c = false →
  getTimer j w = None → getTimer j (call c w) = None.
Proof.
  intros Hc Hr. destruct c as [st|i|i|i|h]; simpl in *; try done.
  - destruct (decide (i = j)) as [->|Hne].
    + unfold start. by rewrite Hr.
    + by rewrite start_frame.
  - destruct (decide (i = j)) as [->|Hne].
    + unfold stop. by rewrite Hr.
    + by rewrite stop_frame.
  - destruct (decide (i = j)) as [->|Hne].
    + unfold reset, start. by rewrite Hr.
    + unfold reset. by rewrite start_frame.
  - unfold tick. destruct (intervals w !! h) as [p|]; [|done].
    destruct (decide (poll_id p = j)) as [<-|Hne].
    + rewrite calculate_update. unfold update.
      by rewrite getTimer_tock, Hr, getTimer_tock.
    + by rewrite calculate_frame.
Qed.

(** X4.  Nothing but [setTimer] registers an id: through any sequence
    of [start], [stop], [reset] calls and ticks, an id without a record
    stays without one. *)
Theorem calls_never_register cs j w :
  forallb (λ c, negb (registers c)) cs = true →
  getTimer j w = None →
  getTimer j (calls cs w) = None.
Proof.
  revert w. induction cs as [|c cs IH]; intros w Hcs Hr; [done|].
  simpl in Hcs. apply andb_true_iff in Hcs as [Hc Hcs].
  apply negb_true_iff in Hc. simpl.
  apply IH; [done|]. by apply call_unregistered.
Qed.

(** X5.  On an id without a record the private helpers do nothing to
    the service: [clearInterval] and [update] return at once, and
    [calculate] and [countdown] only read the clock; no interval is
    armed or cleared. *)
Theorem helpers_unregistered i w :
  getTimer i w = None →
  clearInterval i w = w
  ∧ (∀ d, update i d w = w)
  ∧ (∀ st s, calculate i st s w = tock w)
  ∧ (∀ st, countdown i st w = tock w).
Proof.
  intros Hr. split; [unfold clearInterval; by rewrite Hr|].
  split; [intros d; unfold update; by rewrite Hr|].
  split.
  - intros st s. rewrite calculate_update. unfold update.
    by rewrite getTimer_tock, Hr.
  - intros st. unfold countdown. by rewrite Hr.
Qed.

End Persistence.

Lemma calls_extend_witness :
  getTimer default running
  = Some {| ref := 0; state := defaultTimer;
            monitor := [spread defaultTimer (Some fiftySix)
                          (Some (336000000 # 3360000))];
            ended := [false]; interval := Some 1%positive |}
  ∧ ∃ r', getTimer default
            (@calls utcDateFns
               [Fire 1%positive; CallStop default; CallReset default;
                CallStart confirm] running)
          = Some r'
          ∧ state r' = defaultTimer.
Proof.
  split; [reflexivity|].
  destruct (@calls_extend utcDateFns
              [Fire 1%positive; CallStop default; CallReset default;
               CallStart confirm]
              default running
              {| ref := 0; state := defaultTimer;
                 monitor := [spread defaultTimer (Some fiftySix)
                               (Some (336000000 # 3360000))];
                 ended := [false]; interval := Some 1%positive |}
              eq_refl eq_refl) as (r' & Hr' & _ & Hst & _).
  exists r'. split; [exact Hr' | exact Hst].
Defined.

Lemma calls_never_register_witness :
  getTimer confirm running = None
  ∧ getTimer confirm
      (@calls utcDateFns
         [CallStart confirm; Fire 1%positive; CallStop confirm;
          CallReset confirm] running)
    = None.
Proof.
  split; [reflexivity|].
  apply (@calls_never_register utcDateFns
           [CallStart confirm; Fire 1%positive; CallStop confirm;
            CallReset confirm] confirm running); reflexivity.
Defined.

Lemma helpers_unregistered_witness :
  getTimer confirm running = None
  ∧ clearInterval confirm running = running
  ∧ @calculate utcDateFns confirm confirm10 1000000 running = tock running.
Proof.
  split; [reflexivity|].
  destruct (@helpers_unregistered utcDateFns confirm running eq_refl)
    as (Hclear & _ & Hcalc & _).
  split; [exact Hclear | apply Hcalc].
Defined.

(** ** What [start] and [stop] do to a registered timer *)

Section StartStop.
Context `{DateFns}.

(** X6.  [start] on a registered timer pushes [false] on [ended], then
    exactly one display: the first display, or, when its hours, minutes
    and seconds are already all absent or zero, [stop]'s idle display
    followed by [true] on [ended].  It clears the poll the record held
    and arms a new one, anchored at the first reading of the clock;
    the new poll is armed and recorded in both cases.  Two readings of
    the clock are consumed. *)
Theorem start_arms_poll i w r :
  getTimer i w = Some r →
  let shown :=
    computed (state r) (clock w (reads w)) (clock w (S (reads w))) in
  getTimer i (snd (start i w))
  = Some {| ref := ref r; state := state r;
            monitor := monitor r ++ [if hasValue shown then shown else idleDisplay];
            ended := ended r ++ false :: (if hasValue shown then [] else [true]);
            interval := Some (next_handle w) |}
  ∧ intervals (snd (start i w))
    = <[next_handle w :=
          {| poll_id := i; poll_state := state r;
             poll_start := clock w (reads w) |}]>
        (cancel (interval r) (intervals w))
  ∧ next_handle (snd (start i w)) = Pos.succ (next_handle w)
  ∧ reads (snd (start i w)) = S (S (reads w)).
Proof.
  intros Hr shown. rewrite (start_registered _ _ _ Hr).
  unfold getTimer. cbn [snd timers intervals next_handle reads].
  rewrite lookup_insert_eq. split; [|done].
  unfold calculated. cbn [state set_interval ended_next]. fold shown.
  destruct (hasValue shown);
    unfold set_interval, monitor_next, stopped, ended_next; simpl;
    rewrite <- ?app_assoc; reflexivity.
Qed.

(** X7.  A second [stop] on a stopped timer finds no poll to clear and
    leaves the host as it is, but it is not silent: it pushes the idle
    display and [true] once more, so both buffers hold them twice. *)
Theorem stop_twice i w r :
  getTimer i w = Some r →
  let w1 := snd (stop i w) in
  let w2 := snd (stop i w1) in
  intervals w2 = intervals w1
  ∧ getTimer i w2
    = Some {| ref := ref r; state := state r;
              monitor := monitor r ++ [idleDisplay; idleDisplay];
              ended := ended r ++ [true; true]; interval := None |}.
Proof.
  intros Hr w1 w2. unfold w2, w1.
  rewrite (stop_registered _ _ _ Hr). cbn [snd].
  rewrite (stop_registered _ _ (stopped r)) by apply getTimer_put.
  cbn [snd]. rewrite getTimer_put. split; [reflexivity|].
  unfold stopped. cbn. by rewrite <- !app_assoc.
Qed.

End StartStop.

Lemma start_arms_poll_witness :
  getTimer default (registered defaultTimer)
  = Some {| ref := 0; state := defaultTimer; monitor := []; ended := [];
            interval := None |}
  ∧ intervals (snd (@start utcDateFns default (registered defaultTimer)))
    = <[1%positive := {| poll_id := default; poll_state := defaultTimer;
                         poll_start := 1000000 |}]> ∅.
Proof.
  split; [reflexivity|].
  apply (@start_arms_poll utcDateFns default (registered defaultTimer)
           {| ref := 0; state := defaultTimer; monitor := []; ended := [];
              interval := None |}).
  reflexivity.
Defined.

Lemma stop_twice_witness :
  getTimer default running
  = Some {| ref := 0; state := defaultTimer;
            monitor := [spread defaultTimer (Some fiftySix)
                          (Some (336000000 # 3360000))];
            ended := [false]; interval := Some 1%positive |}
  ∧ (ended <$> getTimer default
                 (snd (stop default (snd (stop default running)))))
    = Some [false; true; true].
Proof.
  split; [reflexivity|].
  destruct (stop_twice default running
              {| ref := 0; state := defaultTimer;
                 monitor := [spread defaultTimer (Some fiftySix)
                               (Some (336000000 # 3360000))];
                 ended := [false]; interval := Some 1%positive |}
              eq_refl) as [_ Hrec].
  cbv zeta in Hrec. rewrite Hrec. reflexivity.
Defined.

(** ** One poll per id *)

Lemma lookup_cancel_Some o (t : gmap Handle Poll) h p :
  cancel o t !! h = Some p ↔ t !! h = Some p ∧ o ≠ Some h.
Proof.
  destruct o as [h'|]; simpl.
  - rewrite lookup_delete_Some. split; intros [? ?]; split; congruence.
  - split; [intros ?; by split | by intros [? _]].
Qed.

Lemma linked_update w w' i r' :
  linked w →
  timers w' = <[i := r']> (timers w) →
  (∀ h p, intervals w' !! h = Some p →
     (intervals w !! h = Some p ∧ poll_id p ≠ i)
     ∨ (poll_id p = i ∧ interval r' = Some h)) →
  linked w'.
Proof.
  intros Hl Ht Hi h p Hp. unfold getTimer. rewrite Ht.
  destruct (Hi h p Hp) as [[Hold Hne]|[Heq Hint]].
  - destruct (Hl h p Hold) as (r & Hr & Hh). exists r.
    by rewrite lookup_insert_ne.
  - exists r'. by rewrite Heq, lookup_insert_eq.
Qed.

Lemma linked_cleared w i r h p :
  linked w → getTimer i w = Some r →
  cancel (interval r) (intervals w) !! h = Some p →
  intervals w !! h = Some p ∧ poll_id p ≠ i.
Proof.
  intros Hl Hr Hp. apply lookup_cancel_Some in Hp as [Hp Hne].
  split; [done|]. intros Heq.
  destruct (Hl h p Hp) as (r' & Hr' & Hh).
  rewrite Heq, Hr in Hr'. congruence.
Qed.

Lemma linked_stop i w : linked w → linked (snd (stop i w)).
Proof.
  intros Hl. destruct (getTimer i w) as [r|] eqn:Hr.
  - rewrite (stop_registered _ _ _ Hr). cbn [snd].
    apply (linked_update w _ i (stopped r) Hl); [done|].
    intros h p Hp. left. by apply (linked_cleared w i r).
  - unfold stop. by rewrite Hr.
Qed.

Lemma linked_fresh c : linked (fresh c).
Proof. intros h p Hp. unfold fresh in Hp. simpl in Hp. by rewrite lookup_empty in Hp. Qed.

Lemma linked_setTimer st w :
  linked w →
  (∀ r, getTimer (id st) w = Some r → interval r = None) →
  linked (setTimer st w).
Proof.
  intros Hl Hidle.
  eapply (linked_update w _ (id st)); [exact Hl|reflexivity|].
  intros h p Hp. left. split; [exact Hp|]. intros Heq.
  destruct (Hl h p Hp) as (r & Hr & Hh). rewrite Heq in Hr.
  rewrite (Hidle r Hr) in Hh. discriminate.
Qed.

Section OnePoll.
Context `{DateFns}.

Lemma linked_calculate i st s w : linked w → linked (calculate i st s w).
Proof.
  intros Hl. destruct (getTimer i w) as [r|] eqn:Hr.
  - rewrite (calculate_registered _ _ _ _ _ Hr).
    apply (linked_update w _ i (calculated st s (clock w (reads w)) r) Hl);
      [done|].
    intros h p. unfold calculated. cbn [put intervals].
    destruct (hasValue _); intros Hp.
    + destruct (decide (poll_id p = i)) as [Heq|Hne]; [right|by left].
      split; [done|]. destruct (Hl h p Hp) as (r' & Hr' & Hh).
      rewrite Heq, Hr in Hr'. simpl. congruence.
    + left. by apply (linked_cleared w i r).
  - rewrite calculate_update. unfold update. by rewrite getTimer_tock, Hr.
Qed.

Lemma linked_start i w : linked w → linked (snd (start i w)).
Proof.
  intros Hl. destruct (getTimer i w) as [r|] eqn:Hr.
  - rewrite (start_registered _ _ _ Hr). cbn [snd].
    eapply (linked_update w _ i); [exact Hl|reflexivity|].
    intros h p. cbn [intervals]. rewrite lookup_insert_Some.
    intros [[<- <-]|[Hne Hp]].
    + right. done.
    + left. by apply (linked_cleared w i r).
  - unfold start. by rewrite Hr.
Qed.

Lemma linked_call c w : registers c = false → linked w → linked (call c w).
Proof.
  intros Hc Hl. destruct c as [st|i|i|i|h]; simpl in *; try done.
  - by apply linked_start.
  - by apply linked_stop.
  - by apply linked_start.
  - unfold tick. destruct (intervals w !! h); [by apply linked_calculate|done].
Qed.

Lemma linked_calls cs w :
  forallb (λ c, negb (registers c)) cs = true → linked w → linked (calls cs w).
Proof.
  revert w. induction cs as [|c cs IH]; intros w Hcs Hl; [done|].
  simpl in Hcs. apply andb_true_iff in Hcs as [Hc Hcs].
  apply negb_true_iff in Hc. simpl. apply IH; [done|]. by apply linked_call.
Qed.

(** X8.  At most one poll per id, through everything but [setTimer]:
    if every armed poll is the one its timer's record holds, then after
    any sequence of [start], [stop], [reset] calls and ticks this is
    still so, and two armed polls for the same id are one and the same
    poll. *)
Theorem one_poll_per_id cs w :
  forallb (λ c, negb (registers c)) cs = true →
  linked w →
  linked (calls cs w)
  ∧ ∀ h1 h2 p1 p2,
      intervals (calls cs w) !! h1 = Some p1 →
      intervals (calls cs w) !! h2 = Some p2 →
      poll_id p1 = poll_id p2 →
      h1 = h2.
Proof.
  intros Hcs Hl. pose proof (linked_calls cs w Hcs Hl) as Hl'.
  split; [exact Hl'|]. intros h1 h2 p1 p2 H1 H2 Heq.
  destruct (Hl' h1 p1 H1) as (r1 & Hr1 & Hh1).
  destruct (Hl' h2 p2 H2) as (r2 & Hr2 & Hh2).
  rewrite Heq in Hr1. congruence.
Qed.


(** X10.  After [stop(id)] no poll is left armed for that id, provided
    the polls were linked: no tick for the id can follow, whether the
    id was running, idle or not registered at all. *)
Theorem stop_leaves_no_poll i w h p :
  linked w →
  intervals (snd (stop i w)) !! h = Some p →
  poll_id p ≠ i.
Proof.
  intros Hl Hp Heq.
  destruct (linked_stop i w Hl h p Hp) as (r & Hr & Hh). rewrite Heq in Hr.
  destruct (getTimer i w) as [r0|] eqn:Hr0.
  - rewrite (stop_registered _ _ _ Hr0) in Hr. cbn [snd] in Hr.
    rewrite getTimer_put in Hr. injection Hr as <-. discriminate.
  - unfold stop in Hr. rewrite Hr0 in Hr. cbn [snd] in Hr. congruence.
Qed.

End OnePoll.

Lemma linked_running : linked running.
Proof.
  apply (@linked_start utcDateFns). apply linked_setTimer.
  - apply linked_fresh.
  - intros r Hr. vm_compute in Hr. discriminate.
Qed.

Lemma linked_twoTimers : linked twoTimers.
Proof.
  apply linked_setTimer; [apply linked_running|].
  intros r Hr. vm_compute in Hr. discriminate.
Qed.

Lemma one_poll_per_id_witness :
  linked running
  ∧ linked (@calls utcDateFns
              [CallStart default; Fire 1%positive; CallReset default;
               CallStop default; CallStart default] running).
Proof.
  split; [apply linked_running|].
  apply (@one_poll_per_id utcDateFns
           [CallStart default; Fire 1%positive; CallReset default;
            CallStop default; CallStart default] running).
  - reflexivity.
  - apply linked_running.
Defined.


Lemma stop_leaves_no_poll_witness :
  intervals (snd (stop confirm twoTimers)) !! 1%positive
  = Some {| poll_id := default; poll_state := defaultTimer;
            poll_start := 1000000 |}
  ∧ poll_id {| poll_id := default; poll_state := defaultTimer;
               poll_start := 1000000 |} ≠ confirm.
Proof.
  split; [reflexivity|].
  apply (stop_leaves_no_poll confirm twoTimers 1%positive).
  - apply linked_twoTimers.
  - reflexivity.
Defined.

(** ** Handles held by records *)

Lemma anchored_update w w' i r' :
  anchored w →
  timers w' = <[i := r']> (timers w) →
  (∀ h, interval r' = Some h →
     ∃ p, intervals w' !! h = Some p ∧ poll_id p = i
          ∧ poll_state p = state r') →
  (∀ h p, intervals w !! h = Some p → poll_id p ≠ i →
     intervals w' !! h = Some p) →
  anchored w'.
Proof.
  intros Ha Ht Hown Hkeep j rj h Hj Hh. unfold getTimer in Hj.
  rewrite Ht in Hj. destruct (decide (i = j)) as [<-|Hne].
  - rewrite lookup_insert_eq in Hj. injection Hj as <-. by apply Hown.
  - rewrite lookup_insert_ne in Hj by done.
    destruct (Ha j rj h Hj Hh) as (p & Hp & Hid & Hst).
    exists p. split; [|done]. apply Hkeep; [done|congruence].
Qed.

Lemma anchored_cleared w i r h p :
  anchored w → getTimer i w = Some r →
  intervals w !! h = Some p → poll_id p ≠ i →
  cancel (interval r) (intervals w) !! h = Some p.
Proof.
  intros Ha Hr Hp Hne. apply lookup_cancel_Some. split; [done|].
  intros Hint. destruct (Ha i r h Hr Hint) as (p' & Hp' & Hid & _).
  congruence.
Qed.

Lemma fresh_update w w' :
  fresh_handles w →
  (∀ h, is_Some (intervals w' !! h) →
     is_Some (intervals w !! h)
     ∨ (h = next_handle w ∧ next_handle w' = Pos.succ (next_handle w))) →
  (next_handle w ≤ next_handle w')%positive →
  fresh_handles w'.
Proof.
  intros Hf Hi Hle h Hh. destruct (Hi h Hh) as [Hold|[-> ->]].
  - specialize (Hf h Hold). lia.
  - lia.
Qed.

Lemma is_Some_cancel o (t : gmap Handle Poll) h :
  is_Some (cancel o t !! h) → is_Some (t !! h).
Proof. intros [p Hp]. apply lookup_cancel_Some in Hp as [Hp _]. by exists p. Qed.

Lemma sound_setTimer st w :
  fresh_handles w ∧ anchored w →
  fresh_handles (setTimer st w) ∧ anchored (setTimer st w).
Proof.
  intros [Hf Ha]. split.
  - apply (fresh_update w); [done| |done]. intros h Hh. by left.
  - eapply (anchored_update w _ (id st)); [exact Ha|reflexivity| |].
    + intros h [=].
    + intros h p Hp _. exact Hp.
Qed.

Lemma sound_stop i w :
  fresh_handles w ∧ anchored w →
  fresh_handles (snd (stop i w)) ∧ anchored (snd (stop i w)).
Proof.
  intros [Hf Ha]. destruct (getTimer i w) as [r|] eqn:Hr.
  - rewrite (stop_registered _ _ _ Hr). cbn [snd]. split.
    + apply (fresh_update w); [done| |done].
      intros h Hh. left. by apply (is_Some_cancel (interval r)).
    + eapply (anchored_update w _ i); [exact Ha|reflexivity| |].
      * intros h [=].
      * intros h p Hp Hne. by apply (anchored_cleared w i r).
  - unfold stop. by rewrite Hr.
Qed.

Section Handles.
Context `{DateFns}.

Lemma state_calculated st s now r : state (calculated st s now r) = state r.
Proof. unfold calculated. by destruct (hasValue _). Qed.

Lemma sound_calculate i st s w :
  fresh_handles w ∧ anchored w →
  fresh_handles (calculate i st s w) ∧ anchored (calculate i st s w).
Proof.
  intros [Hf Ha]. destruct (getTimer i w) as [r|] eqn:Hr.
  - rewrite (calculate_registered _ _ _ _ _ Hr). unfold calculated.
    destruct (hasValue _); split.
    + apply (fresh_update w); [done| |done]. intros h Hh. by left.
    + eapply (anchored_update w _ i); [exact Ha|reflexivity| |].
      * intros h Hh. cbn [put intervals]. by apply (Ha i r h).
      * intros h p Hp _. exact Hp.
    + apply (fresh_update w); [done| |done].
      intros h Hh. left. by apply (is_Some_cancel (interval r)).
    + eapply (anchored_update w _ i); [exact Ha|reflexivity| |].
      * intros h [=].
      * intros h p Hp Hne. by apply (anchored_cleared w i r).
  - rewrite calculate_update. unfold update. rewrite getTimer_tock, Hr.
    done.
Qed.

Lemma sound_start i w :
  fresh_handles w ∧ anchored w →
  fresh_handles (snd (start i w)) ∧ anchored (snd (start i w)).
Proof.
  intros [Hf Ha]. destruct (getTimer i w) as [r|] eqn:Hr.
  - rewrite (start_registered _ _ _ Hr). cbn [snd]. split.
    + apply (fresh_update w); [done| |cbn [next_handle]; lia].
      intros h. cbn [intervals next_handle].
      destruct (decide (next_handle w = h)) as [<-|Hne]; [by right|].
      rewrite lookup_insert_ne by done. intros Hh. left.
      by apply (is_Some_cancel (interval r)).
    + eapply (anchored_update w _ i); [exact Ha|reflexivity| |].
      * intros h [= <-]. cbn [intervals]. rewrite lookup_insert_eq.
        eexists. split; [done|]. split; [done|].
        cbn [poll_state set_interval state]. by rewrite state_calculated.
      * intros h p Hp Hne. cbn [intervals].
        assert (next_handle w ≠ h).
        { assert (h < next_handle w)%positive by (apply Hf; by exists p). lia. }
        rewrite lookup_insert_ne by done.
        by apply (anchored_cleared w i r).
  - unfold start. by rewrite Hr.
Qed.

Lemma sound_call c w :
  fresh_handles w ∧ anchored w →
  fresh_handles (call c w) ∧ anchored (call c w).
Proof.
  intros Hw. destruct c as [st|i|i|i|h]; simpl.
  - by apply sound_setTimer.
  - by apply sound_start.
  - by apply sound_stop.
  - by apply sound_start.
  - unfold tick. destruct (intervals w !! h); [by apply sound_calculate|done].
Qed.

(** X11.  A handle stored in a record always names a live poll of its
    own.  On a host that hands out new handles, through any sequence of
    calls of the public methods ([setTimer] included) and ticks: every
    record with an interval has that interval armed in the host, with a
    callback made for the record's own id and configuration, and every
    armed handle is older than the next one the host will return. *)
Theorem handles_stay_anchored cs w :
  fresh_handles w →
  anchored w →
  fresh_handles (calls cs w) ∧ anchored (calls cs w).
Proof.
  intros Hf Ha. assert (Hw : fresh_handles w ∧ anchored w) by done.
  clear Hf Ha. revert w Hw.
  induction cs as [|c cs IH]; intros w Hw; [done|].
  simpl. apply IH. by apply sound_call.
Qed.

End Handles.

Lemma fresh_handles_fresh c : fresh_handles (fresh c).
Proof. intros h [p Hp]. unfold fresh in Hp. simpl in Hp. by rewrite lookup_empty in Hp. Qed.

Lemma anchored_fresh c : anchored (fresh c).
Proof. intros i r h Hr. unfold getTimer, fresh in Hr. simpl in Hr. by rewrite lookup_empty in Hr. Qed.

Lemma handles_stay_anchored_witness :
  fresh_handles (fresh (readings [] 1000000))
  ∧ anchored (fresh (readings [] 1000000))
  ∧ anchored (@calls utcDateFns
                [CallSetTimer defaultTimer; CallStart default;
                 CallSetTimer default10; CallStart default;
                 Fire 1%positive; CallStop default]
                (fresh (readings [] 1000000))).
Proof.
  split; [apply fresh_handles_fresh|]. split; [apply anchored_fresh|].
  apply (@handles_stay_anchored utcDateFns
           [CallSetTimer defaultTimer; CallStart default;
            CallSetTimer default10; CallStart default;
            Fire 1%positive; CallStop default]
           (fresh (readings [] 1000000))).
  - apply fresh_handles_fresh.
  - apply anchored_fresh.
Defined.

(** ** The percentage over a countdown *)

Section Percentage.
Context `{DateFns}.


(** X13.  For a positive [value], while the clock reads an instant
    between the anchor and the end of the countdown, the percentage
    lies between 0 and 100. *)
Theorem percent_within_bounds i st start w :
  0 < value st →
  start ≤ clock w (reads w) ≤ add start (value st) →
  ∃ d p,
    calculate i st start w = update i d (tock w)
    ∧ percent d = Some p
    ∧ (0 <= p)%Q ∧ (p <= inject_Z 100)%Q.
Proof.
  intros Hpos Hnow.
  exists (computed st start (clock w (reads w))). eexists.
  split; [apply calculate_update|].
  unfold computed, spread, getDuration. cbn [percent snd].
  destruct (value st =? 0) eqn:E; [apply Z.eqb_eq in E; lia|].
  split; [reflexivity|]. unfold add in *.
  set (a := start + value st * 1000 - clock w (reads w)).
  assert (Ha : 0 ≤ a ≤ value st * 1000) by (unfold a; lia).
  clearbody a. destruct (value st) as [|v|v]; try lia.
  unfold Qle, Qdiv, Qmult, Qinv, inject_Z. simpl. split; lia.
Qed.

End Percentage.


Lemma percent_within_bounds_witness :
  0 < value defaultTimer
  ∧ ∃ d p,
      @calculate utcDateFns default defaultTimer 1000000 runningLater
      = update default d (tock runningLater)
      ∧ percent d = Some p
      ∧ (0 <= p)%Q ∧ (p <= inject_Z 100)%Q.
Proof.
  split; [reflexivity|].
  apply (@percent_within_bounds utcDateFns default defaultTimer 1000000
           runningLater).
  - reflexivity.
  - split; discriminate.
Defined.

(** ** [zeroPad] *)

Lemma length_append (s1 s2 : string) :
  String.length (s1 +:+ s2) = (String.length s1 + String.length s2)%nat.
Proof. induction s1 as [|c s1 IH]; simpl; [done | by rewrite IH]. Qed.

Lemma fill_length k pad cur :
  pad ≠ EmptyString → String.length (fill k pad cur) = k.
Proof.
  intros Hpad. revert cur. induction k as [|k IH]; intros cur; [done|].
  simpl. destruct cur as [|c cur]; [|simpl; by rewrite IH].
  destruct pad as [|c pad]; [done|]. simpl. by rewrite IH.
Qed.

Lemma padStart_length n pad s :
  pad ≠ EmptyString →
  String.length (padStart n pad s) = (n `max` String.length s)%nat.
Proof.
  intros Hpad. unfold padStart. rewrite length_append, fill_length by done. lia.
Qed.




(** X14.  [zeroPad] never returns fewer than two characters, and an
    absent value reads like zero: both give ["00"]. *)
Theorem zeroPad_at_least_two n :
  Z.abs n < 10 ^ 21 →
  (2 ≤ String.length (zeroPad (Some n)))%nat
  ∧ zeroPad None = "00"
  ∧ zeroPad (Some 0) = "00".
Proof.
  intros _. split; [|done]. unfold zeroPad.
  destruct (n =? 0); simpl; [lia|].
  rewrite padStart_length by done. lia.
Qed.

(** X15.  A value from 1 to 9 is printed as ["0"] followed by its
    digit. *)
Theorem zeroPad_single_digit n :
  0 < n < 10 →
  zeroPad (Some n) = "0" +:+ pretty n.
Proof.
  intros Hn.
  assert (Hcases : n = 1 ∨ n = 2 ∨ n = 3 ∨ n = 4 ∨ n = 5 ∨ n = 6 ∨ n = 7
                   ∨ n = 8 ∨ n = 9) by lia.
  destruct Hcases as [->|[->|[->|[->|[->|[->|[->|[->| ->]]]]]]]];
    reflexivity.
Qed.


Lemma zeroPad_at_least_two_witness :
  Z.abs 7 < 10 ^ 21 ∧ (2 ≤ String.length (zeroPad (Some 7%Z)))%nat.
Proof.
  split; [reflexivity|]. apply (zeroPad_at_least_two 7). reflexivity.
Defined.

Lemma zeroPad_single_digit_witness :
  0 < 7 < 10 ∧ zeroPad (Some 7) = "07".
Proof.
  split; [lia|]. apply (zeroPad_single_digit 7). lia.
Defined.


(** ** The component's lifecycle *)

Section Lifecycle.
Context `{DateFns}.

Lemma getTimer_setTimer st w :
  getTimer (id st) (setTimer st w)
  = Some {| ref := next_ref w; state := st; monitor := []; ended := [];
            interval := None |}.
Proof. unfold getTimer, setTimer. simpl. apply lookup_insert_eq. Qed.

Lemma ngOnInit_registered w :
  getTimer default (ngOnInit w)
  = Some (set_interval (Some (next_handle w))
            (calculated defaultTimer (clock w (reads w))
               (clock w (S (reads w)))
               {| ref := next_ref w; state := defaultTimer; monitor := [];
                  ended := [false]; interval := None |}))
  ∧ intervals (ngOnInit w)
    = <[next_handle w :=
          {| poll_id := default; poll_state := defaultTimer;
             poll_start := clock w (reads w) |}]> (intervals w).
Proof.
  unfold ngOnInit. cbv zeta.
  rewrite (start_registered _ _ _ (getTimer_setTimer defaultTimer w)).
  unfold getTimer. cbn [snd timers intervals]. rewrite lookup_insert_eq.
  done.
Qed.

(** X17.  [ngOnInit] leaves the default timer registered afresh and
    running: its record holds [defaultTimer], one display (the first
    one, or the idle one if the first breakdown were already expired),
    [false] on [ended], and the handle of a newly armed poll anchored
    at the first clock reading.  The other timer is untouched.  No
    interval is cleared: a poll armed for an earlier default record
    stays in the host's table. *)
Theorem ngOnInit_starts_default w :
  let shown :=
    computed defaultTimer (clock w (reads w)) (clock w (S (reads w))) in
  getTimer default (ngOnInit w)
  = Some {| ref := next_ref w; state := defaultTimer;
            monitor := [if hasValue shown then shown else idleDisplay];
            ended := false :: (if hasValue shown then [] else [true]);
            interval := Some (next_handle w) |}
  ∧ intervals (ngOnInit w)
    = <[next_handle w :=
          {| poll_id := default; poll_state := defaultTimer;
             poll_start := clock w (reads w) |}]> (intervals w)
  ∧ getTimer confirm (ngOnInit w) = getTimer confirm w.
Proof.
  intros shown. destruct (ngOnInit_registered w) as [Hrec Hint].
  split; [|split; [exact Hint|]].
  - rewrite Hrec. unfold calculated. fold shown.
    by destruct (hasValue shown).
  - unfold ngOnInit. cbv zeta. rewrite start_frame by done.
    by apply setTimer_frame.
Qed.

(** X18.  A component that is created and destroyed leaves no poll
    behind: on a host whose next handle is not in use, [ngOnDestroy]
    after [ngOnInit] gives back the interval table there was before,
    and the default timer ends idle, its monitor ending with the idle
    display and [ended] with [true]. *)
Theorem lifecycle_leaves_no_poll w :
  intervals w !! next_handle w = None →
  intervals (ngOnDestroy (ngOnInit w)) = intervals w
  ∧ ∃ r, getTimer default (ngOnDestroy (ngOnInit w)) = Some r
         ∧ interval r = None
         ∧ last (monitor r) = Some idleDisplay
         ∧ last (ended r) = Some true.
Proof.
  intros Hfree. destruct (ngOnInit_registered w) as [Hrec Hint].
  unfold ngOnDestroy.
  rewrite (stop_registered _ _ _ Hrec). cbn [snd put intervals interval cancel set_interval].
  rewrite Hint, delete_insert_eq, delete_id by done. split; [done|].
  rewrite getTimer_put. eexists. split; [done|]. split; [done|].
  unfold stopped. cbn [monitor ended]. by rewrite !last_snoc.
Qed.

End Lifecycle.

Lemma lifecycle_leaves_no_poll_witness :
  intervals twoTimers !! next_handle twoTimers = None
  ∧ intervals (@ngOnDestroy (@ngOnInit utcDateFns twoTimers))
    = intervals twoTimers.
Proof.
  split; [reflexivity|].
  apply (@lifecycle_leaves_no_poll utcDateFns twoTimers). reflexivity.
Defined.

(** ** Expiry ends the ticking *)

Section ExpiryEnds.
Context `{DateFns}.

(** X19.  When a tick finds its countdown expired, no poll is left
    armed for that id afterwards, provided the polls were linked: the
    tick that stops a timer is its last one.  Polls of other ids stay
    armed. *)
Theorem expiry_leaves_no_poll h w p h' p' :
  linked w →
  intervals w !! h = Some p →
  hasValue (computed (poll_state p) (poll_start p) (clock w (reads w)))
  = false →
  intervals (tick h w) !! h' = Some p' →
  poll_id p' ≠ poll_id p ∧ intervals w !! h' = Some p'.
Proof.
  intros Hl Hp Hv Hp'. unfold tick in Hp'. rewrite Hp in Hp'.
  destruct (Hl h p Hp) as (r & Hr & Hh).
  destruct (calculate_expired _ (poll_state p) (poll_start p) w r Hr Hv)
    as [_ Hput].
  rewrite Hput in Hp'. cbn [put intervals] in Hp'.
  destruct (linked_cleared w (poll_id p) r h' p' Hl Hr Hp') as [Hold Hne].
  done.
Qed.

End ExpiryEnds.

Lemma linked_bothRunning : linked bothRunning.
Proof.
  apply (@linked_start utcDateFns). apply linked_setTimer.
  - apply (@linked_start utcDateFns). apply linked_setTimer.
    + apply linked_fresh.
    + intros r Hr. vm_compute in Hr. discriminate.
  - intros r Hr. vm_compute in Hr. discriminate.
Qed.

Lemma expiry_leaves_no_poll_witness :
  intervals bothRunning !! 1%positive
  = Some {| poll_id := default; poll_state := oneSecond;
            poll_start := 1000000 |}
  ∧ intervals (@tick utcDateFns 1%positive bothRunning) !! 2%positive
    = Some {| poll_id := confirm; poll_state := confirm10;
              poll_start := 1001200 |}
  ∧ intervals (@tick utcDateFns 1%positive bothRunning) !! 1%positive = None
  ∧ confirm ≠ default.
Proof.
  split; [reflexivity|]. split; [reflexivity|]. split; [reflexivity|].
  apply (@expiry_leaves_no_poll utcDateFns 1%positive bothRunning
           {| poll_id := default; poll_state := oneSecond;
              poll_start := 1000000 |}
           2%positive
           {| poll_id := confirm; poll_state := confirm10;
              poll_start := 1001200 |}).
  - apply linked_bothRunning.
  - reflexivity.
  - reflexivity.
  - reflexivity.
Defined.
